(** * PaxfulApi: the facade of the Paxful SDK

    A shallow embedding of [src/PaxfulApi.ts].  The class [PaxfulApi] is a
    thin facade: its verbs assemble a [RequestBuilder] and hand it to the
    authenticated executor, its credential methods pipe the token acquirer
    into the credential storage, and its constructor fills in defaults.

    The collaborators imported by the file ([RequestBuilder],
    [containsBinary], [executeRequestAuthorized], the token acquirer, the
    credential storage interface) live in other modules of the SDK; they are
    either taken as parameters or modelled from the specification, and each
    such definition says so. *)

From Stdlib Require Import ZArith.
From stdpp Require Import base option strings list gmap.

Local Open Scope string_scope.

(** ** JavaScript values carried by payloads *)

(** Modelled from the spec: the values a payload mapping may hold
    ([InvokeBody] and [AnyJson] are declared in [commands/Invoke]).  The spec
    distinguishes strings, numbers and binary blobs/streams, and speaks of
    nested objects; numbers are kept as integers, only their tag matters. *)
#[local] Set Warnings "-register-all".
Inductive JsValue : Type :=
  | JsNull
  | JsBool (b : bool)
  | JsNumber (n : Z)
  | JsString (s : string)
  | JsBlob (data : list Byte.byte)
  | JsStream (data : list Byte.byte)
  | JsArray (items : list JsValue)
  | JsObject (fields : gmap string JsValue).

Abbreviation InvokeBody := (gmap string JsValue) (only parsing).
Abbreviation AnyJson := JsValue (only parsing).

(** A value is binary when it is a blob or a stream itself. *)
Definition isBinary (v : JsValue) : bool :=
  match v with
  | JsBlob _ | JsStream _ => true
  | _ => false
  end.

(** Modelled from the spec: [containsBinary] of [commands/Invoke], "a pure
    predicate over a payload mapping; returns true iff any value is a binary
    blob/stream", looking at top-level field values only. *)
Definition containsBinary (payload : InvokeBody) : bool :=
  existsb isBinary (map_to_list payload).*2.

(** ** Strings *)

(** [String.prototype.endsWith] with the default end position: the search
    string must fit, and the last [length search] units must equal it. *)
Definition endsWith (s search : string) : bool :=
  let n := String.length s in
  let k := String.length search in
  if decide (k ≤ n)%nat
  then bool_decide (String.substring (n - k) k s = search)
  else false.

(** ** The process environment *)

Definition PAXFUL_OAUTH_HOST : string := "PAXFUL_OAUTH_HOST".
Definition PAXFUL_DATA_HOST : string := "PAXFUL_DATA_HOST".

(** A template literal renders an unset variable as the text [undefined]. *)
Definition template (v : option string) : string :=
  match v with
  | Some s => s
  | None => "undefined"
  end.

(** [`${process.env.PAXFUL_DATA_HOST}${url}`] *)
Definition dataHostUrl (env : gmap string string) (url : string) : string :=
  template (env !! PAXFUL_DATA_HOST) ++ url.

(** ** Request builder *)

Inductive AcceptKind := AcceptJson | AcceptBinary.
Inductive BodyKind := BodyNone | BodyJson | BodyForm | BodyMultipart.

(** Modelled from the spec: the accumulated state of the [RequestBuilder] of
    [commands/Invoke], the spec's [RequestSpec]
    [{ url, method, acceptKind, bodyKind, body, urlParams }].  The method is
    the string the facade passes to [withMethod]. *)
Record RequestBuilder := mkRequestBuilder {
  rb_url : string;
  rb_method : string;
  rb_acceptKind : AcceptKind;
  rb_bodyKind : BodyKind;
  rb_body : option JsValue;
  rb_urlParams : gmap string JsValue
}.

(** Modelled from the spec: [new RequestBuilder(url)]; nothing has been
    accumulated yet, so there is no body and there are no url parameters. *)
Definition newRequestBuilder (url : string) : RequestBuilder :=
  {| rb_url := url; rb_method := "GET"; rb_acceptKind := AcceptJson;
     rb_bodyKind := BodyNone; rb_body := None; rb_urlParams := ∅ |}.

(** Modelled from the spec: the fluent operations of the builder.  Each one
    overwrites its own part of the state; among the body encodings the last
    writer wins. *)
Definition withMethod (m : string) (rb : RequestBuilder) : RequestBuilder :=
  {| rb_url := rb_url rb; rb_method := m; rb_acceptKind := rb_acceptKind rb;
     rb_bodyKind := rb_bodyKind rb; rb_body := rb_body rb;
     rb_urlParams := rb_urlParams rb |}.

Definition acceptJson (rb : RequestBuilder) : RequestBuilder :=
  {| rb_url := rb_url rb; rb_method := rb_method rb; rb_acceptKind := AcceptJson;
     rb_bodyKind := rb_bodyKind rb; rb_body := rb_body rb;
     rb_urlParams := rb_urlParams rb |}.

Definition acceptBinary (rb : RequestBuilder) : RequestBuilder :=
  {| rb_url := rb_url rb; rb_method := rb_method rb; rb_acceptKind := AcceptBinary;
     rb_bodyKind := rb_bodyKind rb; rb_body := rb_body rb;
     rb_urlParams := rb_urlParams rb |}.

Definition withUrlParams (params : InvokeBody) (rb : RequestBuilder)
  : RequestBuilder :=
  {| rb_url := rb_url rb; rb_method := rb_method rb;
     rb_acceptKind := rb_acceptKind rb;
     rb_bodyKind := rb_bodyKind rb; rb_body := rb_body rb;
     rb_urlParams := params |}.

Definition withBody (k : BodyKind) (b : option JsValue) (rb : RequestBuilder)
  : RequestBuilder :=
  {| rb_url := rb_url rb; rb_method := rb_method rb;
     rb_acceptKind := rb_acceptKind rb;
     rb_bodyKind := k; rb_body := b;
     rb_urlParams := rb_urlParams rb |}.

Definition withJsonData (json : option AnyJson) : RequestBuilder → RequestBuilder :=
  withBody BodyJson json.

Definition withFormData (payload : InvokeBody)
  : RequestBuilder → RequestBuilder :=
  withBody BodyForm (Some (JsObject payload)).

Definition withMultipartFormData (payload : InvokeBody)
  : RequestBuilder → RequestBuilder :=
  withBody BodyMultipart (Some (JsObject payload)).

(** ** Credentials, configuration, errors, promises *)

(** Modelled from the spec: the [Credentials] record of [oauth]. *)
Record Credentials := mkCredentials {
  accessToken : string;
  refreshToken : option string;
  expiresAt : Z;
  tokenType : string;
  cred_scope : list string
}.

(** Modelled from the spec: [ApiConfiguration].  [scope] is optional; the
    source keeps the two host settings in the process environment
    ([PAXFUL_OAUTH_HOST], [PAXFUL_DATA_HOST]), not in this record. *)
Record ApiConfiguration := mkApiConfiguration {
  clientId : string;
  clientSecret : string;
  redirectUri : option string;
  scope : option (list string)
}.

Definition set_scope (sc : list string) (c : ApiConfiguration) : ApiConfiguration :=
  {| clientId := clientId c; clientSecret := clientSecret c;
     redirectUri := redirectUri c; scope := Some sc |}.

(** Errors: a plain JavaScript [Error] with its message, and the taxonomy of
    the spec for the executor and the token acquirer. *)
Inductive Error :=
  | JsError (message : string)
  | AuthExchangeError
  | AuthRefreshError
  | NotAuthenticatedError
  | AuthorizationDeniedError
  | ResponseParseError
  | TransportError
  | BuilderConflictError.

(** A settled promise. *)
Inductive Promise (A : Type) :=
  | Resolved (a : A)
  | Rejected (e : Error).
Arguments Resolved {A} a.
Arguments Rejected {A} e.

(** Modelled from the spec: the credential store collaborator,
    [saveCredentials(Credentials) -> void] and
    [loadCredentials() -> Credentials | absent], an opaque capability. *)
Class CredentialStorage (S : Type) := {
  saveCredentials : Credentials → S → S;
  loadCredentials : S → option Credentials
}.

(** A store that keeps the last record saved and the history of saves. *)
Record CellStorage := mkCellStorage {
  cell : option Credentials;
  saved : list Credentials
}.

#[export] Instance CellStorage_ops : CredentialStorage CellStorage := {|
  saveCredentials c st := {| cell := Some c; saved := saved st ++ [c] |};
  loadCredentials st := cell st
|}.

(** ** The facade *)

Module PaxfulApi.

Section WithCollaborators.

Context {S : Type} `{CredentialStorage S}.
Context {Profile : Type} {AnyPromise : Type}.
Context {Http2ServerResponse : Type} {Redirected : Type}.

(** The commands imported from [./commands]; their sources are not part of
    this file, so they are parameters. *)
Variable retrieveImpersonatedCredentials :
  ApiConfiguration → string → Promise Credentials.
Variable retrievePersonalCredentials : ApiConfiguration → Promise Credentials.
Variable commands_getProfile : S → ApiConfiguration → Promise Profile.
Variable authorize : Http2ServerResponse → ApiConfiguration → Redirected.
Variable executeRequestAuthorized :
  RequestBuilder → ApiConfiguration → option S → AnyPromise.

(** The two private fields of the class. *)
Record t := mk {
  apiConfiguration : ApiConfiguration;
  credentialStorage : option S
}.

Definition defaultOAuthHost : string := "https://accounts.paxful.com".
Definition defaultDataHost : string := "https://api.paxful.com".

(** [!process.env.X]: unset or the empty string. *)
Definition falsy (v : option string) : bool :=
  match v with
  | None => true
  | Some s => bool_decide (s = "")
  end.

Definition validateAndSetDefaultParameters
    (configuration : ApiConfiguration) (env : gmap string string)
  : ApiConfiguration * gmap string string :=
  let configuration :=
    match scope configuration with
    | None => set_scope ["profile"; "email"] configuration
    | Some sc =>
        if bool_decide (length sc = 0%nat)
        then set_scope ["profile"; "email"] configuration
        else configuration
    end in
  let env :=
    if bool_decide (env !! PAXFUL_OAUTH_HOST = Some "")
    then <[PAXFUL_OAUTH_HOST := defaultOAuthHost]> env
    else <[PAXFUL_OAUTH_HOST :=
             default defaultOAuthHost (env !! PAXFUL_OAUTH_HOST)]> env in
  let env :=
    if bool_decide (env !! PAXFUL_DATA_HOST = Some "")
       || falsy (env !! PAXFUL_DATA_HOST)
    then <[PAXFUL_DATA_HOST := defaultDataHost]> env
    else <[PAXFUL_DATA_HOST :=
             default defaultDataHost (env !! PAXFUL_DATA_HOST)]> env in
  (configuration, env).

(** The constructor: both fields are set, then the defaults are filled in
    on the very configuration object the instance holds. *)
Definition new (configuration : ApiConfiguration)
    (credentialStorage : option S) (env : gmap string string)
  : t * gmap string string :=
  let '(configuration, env) :=
    validateAndSetDefaultParameters configuration env in
  (mk configuration credentialStorage, env).

(** Redirect the user to authorize the access: what [authorize] does with
    the response, given the instance's configuration. *)
Definition login (this : t) (response : Http2ServerResponse) : Redirected :=
  authorize response (apiConfiguration this).

Definition saveToken (this : t) (credentialsPromise : Promise Credentials)
  : Promise Credentials * t :=
  match credentialStorage this with
  | Some storage =>
      match credentialsPromise with
      | Resolved credentials =>
          (credentialsPromise,
           mk (apiConfiguration this)
              (Some (saveCredentials credentials storage)))
      | Rejected e => (Rejected e, this)
      end
  | None => (credentialsPromise, this)
  end.

Definition impersonatedCredentials (this : t) (code : string)
  : Promise Credentials * t :=
  saveToken this
    (retrieveImpersonatedCredentials (apiConfiguration this) code).

Definition myCredentials (this : t) : Promise Credentials * t :=
  saveToken this (retrievePersonalCredentials (apiConfiguration this)).

Definition getProfile (this : t) : Promise Profile :=
  match credentialStorage this with
  | None => Rejected (JsError "No credentials storage defined.")
  | Some storage => commands_getProfile storage (apiConfiguration this)
  end.

(** [method] is optional and defaults to POST. *)
Definition upload (env : gmap string string) (this : t) (url : string)
    (payload : InvokeBody) (method : option string) : AnyPromise :=
  executeRequestAuthorized
    (withMultipartFormData payload
       (withMethod (default "POST" method)
          (acceptJson (newRequestBuilder (dataHostUrl env url)))))
    (apiConfiguration this) (credentialStorage this).

Definition invoke (env : gmap string string) (this : t) (url : string)
    (payload : option InvokeBody) : AnyPromise :=
  match payload, from_option containsBinary false payload with
  | Some p, true => upload env this url p None
  | _, _ =>
      let requestBuilder :=
        withMethod "POST"
          (acceptJson (newRequestBuilder (dataHostUrl env url))) in
      let requestBuilder :=
        match payload with
        | Some p => withFormData p requestBuilder
        | None => requestBuilder
        end in
      let requestBuilder :=
        if endsWith url "currency/btc"
        then withMethod "GET" requestBuilder
        else requestBuilder in
      executeRequestAuthorized requestBuilder
        (apiConfiguration this) (credentialStorage this)
  end.

(** [method] is optional and defaults to GET. *)
Definition download (env : gmap string string) (this : t) (url : string)
    (method : option string) : AnyPromise :=
  executeRequestAuthorized
    (withMethod (default "GET" method)
       (acceptBinary (newRequestBuilder (dataHostUrl env url))))
    (apiConfiguration this) (credentialStorage this).

(** [params] is optional and defaults to the empty object. *)
Definition get (env : gmap string string) (this : t) (url : string)
    (params : option InvokeBody) : AnyPromise :=
  executeRequestAuthorized
    (withUrlParams (default ∅ params)
       (withMethod "GET"
          (acceptJson (newRequestBuilder (dataHostUrl env url)))))
    (apiConfiguration this) (credentialStorage this).

Definition invokeJsonMethod (env : gmap string string) (this : t)
    (url method : string) (json : option AnyJson) : AnyPromise :=
  executeRequestAuthorized
    (withJsonData json
       (withMethod method
          (acceptJson (newRequestBuilder (dataHostUrl env url)))))
    (apiConfiguration this) (credentialStorage this).

Definition post env this url json := invokeJsonMethod env this url "POST" json.
Definition delete env this url json := invokeJsonMethod env this url "DELETE" json.
Definition put env this url json := invokeJsonMethod env this url "PUT" json.
Definition patch env this url json := invokeJsonMethod env this url "PATCH" json.

End WithCollaborators.

Arguments t S : clear implicits.

End PaxfulApi.

(** ** The authenticated executor *)

Module Executor.

(** What the data host sends back, and what the executor hands over after
    parsing. *)
Record Response := mkResponse {
  status : Z;
  body : string
}.

Inductive Dispatched :=
  | HostResponse (r : Response)
  | NetworkFailure.

Inductive Parsed :=
  | ParsedJson (j : JsValue)
  | RawBytes (b : string).

(** The JSON answer of the OAuth token endpoint. *)
Record TokenResponse := mkTokenResponse {
  access_token : string;
  refresh_token : option string;
  expires_in : Z;
  token_type : string;
  token_scope : list string
}.

(** The outside world of one [execute] call: the clock, the credentials
    left by a prior login, the OAuth host answering a refresh grant (or
    rejecting it), the data host answering the n-th dispatch of the call,
    and the JSON parser. *)
Record Host := mkHost {
  now : Z;
  session : option Credentials;
  refreshGrant : ApiConfiguration → string → option TokenResponse;
  dispatch : nat → RequestBuilder → string → Dispatched;
  parseJson : string → option JsValue
}.

(** What a call does to the outside, in order. *)
Inductive Event :=
  | EvRefresh
  | EvPersist (c : Credentials)
  | EvDispatch (n : nat) (token : string).

Definition isRefresh (e : Event) : bool :=
  match e with EvRefresh => true | _ => false end.
Definition isDispatch (e : Event) : bool :=
  match e with EvDispatch _ _ => true | _ => false end.

Definition refreshes (tr : list Event) : nat := length (filter isRefresh tr).
Definition dispatches (tr : list Event) : nat := length (filter isDispatch tr).

Definition safetySkew : Z := 30.

Definition isAuthFailure (st : Z) : bool := (st =? 401)%Z || (st =? 403)%Z.

Section WithStorage.

Context {S : Type} `{CredentialStorage S}.

Record ExecState := mkExecState {
  trace : list Event;
  storage : option S
}.

(** Computations of the executor: they log events, may update the
    storage, and either produce a value or fail. *)
Definition Exec (A : Type) : Type := ExecState → Promise A * ExecState.

#[local] Instance Exec_ret : MRet Exec := λ A a s, (Resolved a, s).
#[local] Instance Exec_bind : MBind Exec := λ A B f m s,
  match m s with
  | (Resolved a, s') => f a s'
  | (Rejected e, s') => (Rejected e, s')
  end.

Definition fail {A} (e : Error) : Exec A := λ s, (Rejected e, s).

Definition emit (ev : Event) : Exec unit := λ s,
  (Resolved (), mkExecState (trace s ++ [ev]) (storage s)).

Definition persist (c : Credentials) : Exec unit := λ s,
  match storage s with
  | Some st =>
      (Resolved (),
       mkExecState (trace s ++ [EvPersist c]) (Some (saveCredentials c st)))
  | None => (Resolved (), s)
  end.

Definition stored : Exec (option Credentials) := λ s,
  (Resolved (storage s ≫= loadCredentials), s).

Variable host : Host.

(** Modelled from the spec: the [refresh] exchange of the token acquirer
    (section 4.1): it fails with [AuthRefreshError] when the refresh token
    is absent or the host rejects it, and stamps the new record with
    [now + expires_in] less the safety skew. *)
Definition refresh (config : ApiConfiguration) (credentials : Credentials)
  : Promise Credentials :=
  match refreshToken credentials with
  | None => Rejected AuthRefreshError
  | Some tok =>
      match refreshGrant host config tok with
      | None => Rejected AuthRefreshError
      | Some t =>
          Resolved
            {| accessToken := access_token t;
               refreshToken := refresh_token t;
               expiresAt := (now host + expires_in t - safetySkew)%Z;
               tokenType := token_type t;
               cred_scope := token_scope t |}
      end
  end.

(** Step 2 of the algorithm: refresh, persist the new record, go on. *)
Definition refreshStep (config : ApiConfiguration) (credentials : Credentials)
  : Exec Credentials :=
  _ ← emit EvRefresh;
  match refresh config credentials with
  | Rejected e => fail e
  | Resolved c => _ ← persist c; mret c
  end.

(** Step 3: attach the bearer token and dispatch; a network failure is a
    [TransportError]. *)
Definition dispatchStep (n : nat) (requestSpec : RequestBuilder)
    (credentials : Credentials) : Exec Response :=
  _ ← emit (EvDispatch n (accessToken credentials));
  match dispatch host n requestSpec (accessToken credentials) with
  | HostResponse r => mret r
  | NetworkFailure => fail TransportError
  end.

(** Step 5: response parsing by [acceptKind]. *)
Definition parseStep (requestSpec : RequestBuilder) (r : Response)
  : Exec Parsed :=
  match rb_acceptKind requestSpec with
  | AcceptJson =>
      match parseJson host (body r) with
      | Some j => mret (ParsedJson j)
      | None => fail ResponseParseError
      end
  | AcceptBinary => mret (RawBytes (body r))
  end.

(** Modelled from the spec: [executeRequestAuthorized] of [./commands],
    the algorithm of section 4.3.  An authorization failure met when the
    refresh of step 2 has already been made in this call is not retried
    and is reported as [AuthorizationDeniedError]. *)
Definition run (requestSpec : RequestBuilder) (config : ApiConfiguration)
  : Exec Parsed :=
  fromStore ← stored;
  match (match fromStore with Some c => Some c | None => session host end) with
  | None => fail NotAuthenticatedError
  | Some credentials =>
      let expired := bool_decide (expiresAt credentials ≤ now host)%Z in
      credentials ←
        (if expired then refreshStep config credentials else mret credentials);
      r ← dispatchStep 0 requestSpec credentials;
      if isAuthFailure (status r) then
        if expired then fail AuthorizationDeniedError
        else
          credentials ← refreshStep config credentials;
          r ← dispatchStep 1 requestSpec credentials;
          if isAuthFailure (status r) then fail AuthorizationDeniedError
          else parseStep requestSpec r
      else parseStep requestSpec r
  end.

Definition execute (requestSpec : RequestBuilder) (config : ApiConfiguration)
    (credentialStorage : option S) : Promise Parsed * ExecState :=
  run requestSpec config (mkExecState [] credentialStorage).

(** The credentials step 1 resolves. *)
Definition resolved (credentialStorage : option S) : option Credentials :=
  match credentialStorage ≫= loadCredentials with
  | Some c => Some c
  | None => session host
  end.

(** The state after a denied first dispatch, a successful refresh to
    [c] and the retry: the events in order, and the storage with [c]
    saved. *)
Definition retried (credentialStorage : option S)
    (credentials c : Credentials) : ExecState :=
  {| trace := [EvDispatch 0 (accessToken credentials); EvRefresh]
              ++ (if credentialStorage is Some _ then [EvPersist c] else [])
              ++ [EvDispatch 1 (accessToken c)];
     storage := saveCredentials c <$> credentialStorage |}.

End WithStorage.

End Executor.

(** The call a verb hands to the executor, kept as data: passing
    [mkDelegated] for the executor shows what a verb delegates. *)
Record Delegated (S : Type) := mkDelegated {
  request : RequestBuilder;
  config : ApiConfiguration;
  store : option S
}.
Arguments mkDelegated {S} request config store.
Arguments request {S} d.
Arguments config {S} d.
Arguments store {S} d.

(** ** Request shapes *)

(** A verb delegates: whatever the executor, it is applied to the request
    the recording executor shows, with the instance's configuration and
    storage. *)
Definition delegates {S AnyPromise : Type}
    (verb : ∀ R : Type, (RequestBuilder → ApiConfiguration → option S → R) → R)
    (exec : RequestBuilder → ApiConfiguration → option S → AnyPromise)
    (this : PaxfulApi.t S) : Prop :=
  verb AnyPromise exec =
    exec (request (verb (Delegated S) mkDelegated))
      (PaxfulApi.apiConfiguration this) (PaxfulApi.credentialStorage this).

(** The request of a JSON verb: the verb's method, the optional payload as a
    JSON body, JSON response parsing. *)
Definition jsonRequest (env : gmap string string) (url method : string)
    (json : option JsValue) (rb : RequestBuilder) : Prop :=
  rb_url rb = dataHostUrl env url ∧ rb_method rb = method
  ∧ rb_acceptKind rb = AcceptJson
  ∧ rb_bodyKind rb = BodyJson ∧ rb_body rb = json ∧ rb_urlParams rb = ∅.

(** Every verb, whatever its other arguments, builds its request for the
    url [target]. *)
Definition verbsTarget {S : Type} (env : gmap string string)
    (this : PaxfulApi.t S) (url target : string) : Prop :=
  (∀ payload,
     rb_url (request (PaxfulApi.invoke mkDelegated env this url payload)) = target)
  ∧ (∀ payload method,
       rb_url (request (PaxfulApi.upload mkDelegated env this url payload method))
       = target)
  ∧ (∀ method,
       rb_url (request (PaxfulApi.download mkDelegated env this url method)) = target)
  ∧ (∀ params,
       rb_url (request (PaxfulApi.get mkDelegated env this url params)) = target)
  ∧ (∀ json,
       rb_url (request (PaxfulApi.post mkDelegated env this url json)) = target
       ∧ rb_url (request (PaxfulApi.put mkDelegated env this url json)) = target
       ∧ rb_url (request (PaxfulApi.patch mkDelegated env this url json)) = target
       ∧ rb_url (request (PaxfulApi.delete mkDelegated env this url json)) = target).

(** ** Sample values *)

Definition sampleConfiguration : ApiConfiguration :=
  {| clientId := "client"; clientSecret := "secret";
     redirectUri := None; scope := None |}.

Definition sampleCredentials : Credentials :=
  {| accessToken := "token-1"; refreshToken := Some "refresh-1";
     expiresAt := 1000; tokenType := "Bearer"; cred_scope := ["profile"] |}.

Definition sampleApi : PaxfulApi.t CellStorage :=
  PaxfulApi.mk sampleConfiguration (Some (mkCellStorage None [])).

Definition sampleEnv : gmap string string :=
  {[ PAXFUL_DATA_HOST := "https://api.paxful.com" ]}.

Definition sampleRequest : RequestBuilder :=
  withMethod "GET"
    (acceptJson (newRequestBuilder "https://api.paxful.com/offer/all")).

(** Credentials of the client-credentials grant: no refresh token. *)
Definition personalCredentials : Credentials :=
  {| accessToken := "token-0"; refreshToken := None;
     expiresAt := 1000; tokenType := "Bearer"; cred_scope := ["profile"] |}.

Definition sampleGrant : Executor.TokenResponse :=
  {| Executor.access_token := "token-2";
     Executor.refresh_token := Some "refresh-2";
     Executor.expires_in := 3600;
     Executor.token_type := "Bearer";
     Executor.token_scope := ["profile"] |}.

(** A data host that answers 401 to everything. *)
Definition denyingHost : Executor.Host :=
  {| Executor.now := 500;
     Executor.session := None;
     Executor.refreshGrant := λ _ _, Some sampleGrant;
     Executor.dispatch := λ _ _ _,
       Executor.HostResponse (Executor.mkResponse 401 "");
     Executor.parseJson := λ _, Some JsNull |}.

(** A data host that answers 401 once, then 200. *)
Definition recoveringHost : Executor.Host :=
  {| Executor.now := 500;
     Executor.session := None;
     Executor.refreshGrant := λ _ _, Some sampleGrant;
     Executor.dispatch := λ n _ _,
       match n with
       | O => Executor.HostResponse (Executor.mkResponse 401 "")
       | _ => Executor.HostResponse (Executor.mkResponse 200 "null")
       end;
     Executor.parseJson := λ _, Some JsNull |}.

(** * Properties *)

(** ** Strings *)

Lemma string_app_cons (c : Ascii.ascii) (a b : string) :
  String c a ++ b = String c (a ++ b).
Proof. reflexivity. Qed.

Lemma string_length_app (a b : string) :
  String.length (a ++ b) = (String.length a + String.length b)%nat.
Proof. induction a as [|c a IH]; simpl; [reflexivity | now rewrite IH]. Qed.

Lemma substring_all (s : string) : String.substring 0 (String.length s) s = s.
Proof. induction s as [|c s IH]; simpl; [reflexivity | now rewrite IH]. Qed.

Lemma substring_skip_app (a b : string) :
  String.substring (String.length a) (String.length b) (a ++ b) = b.
Proof. induction a as [|c a IH]; simpl; [apply substring_all | exact IH]. Qed.

Lemma substring_split (s : string) :
  ∀ n, (n ≤ String.length s)%nat →
    s = String.substring 0 n s ++ String.substring n (String.length s - n) s.
Proof.
  induction s as [|c s IH]; intros n Hn; simpl in *.
  - destruct n; [reflexivity | lia].
  - destruct n as [|n]; simpl.
    + now rewrite substring_all.
    + rewrite string_app_cons. f_equal. apply IH. lia.
Qed.

(** [endsWith] holds exactly of the strings that are some prefix followed by
    the search string. *)
Lemma endsWith_spec (s search : string) :
  endsWith s search = true ↔ ∃ pre, s = pre ++ search.
Proof.
  unfold endsWith. split.
  - case_decide as Hle; [|discriminate].
    intros Heq%bool_decide_eq_true.
    exists (String.substring 0 (String.length s - String.length search) s).
    pose proof (substring_split s (String.length s - String.length search))
      as Hs.
    replace (String.length s - (String.length s - String.length search))%nat
      with (String.length search) in Hs by lia.
    rewrite Heq in Hs. apply Hs. lia.
  - intros [pre ->]. rewrite string_length_app.
    rewrite decide_True by lia.
    apply bool_decide_eq_true.
    replace (String.length pre + String.length search - String.length search)%nat
      with (String.length pre) by lia.
    apply substring_skip_app.
Qed.

(** ** containsBinary *)

Lemma containsBinary_true_iff (payload : gmap string JsValue) :
  containsBinary payload = true ↔
  ∃ k v, payload !! k = Some v ∧ isBinary v = true.
Proof.
  unfold containsBinary. rewrite existsb_exists. split.
  - intros (v & Hin & Hb).
    apply list_elem_of_In, list_elem_of_fmap in Hin as ([k v'] & -> & Hkv).
    apply elem_of_map_to_list in Hkv. eauto.
  - intros (k & v & Hkv & Hb). exists v. split; [|exact Hb].
    apply list_elem_of_In, list_elem_of_fmap. exists (k, v). split; [reflexivity|].
    now apply elem_of_map_to_list.
Qed.

Lemma containsBinary_false_iff (payload : gmap string JsValue) :
  containsBinary payload = false ↔
  ∀ k v, payload !! k = Some v → isBinary v = false.
Proof.
  rewrite <- not_true_iff_false, containsBinary_true_iff. split.
  - intros Hno k v Hkv. destruct (isBinary v) eqn:Hb; [|reflexivity].
    exfalso. apply Hno. eauto.
  - intros Hall (k & v & Hkv & Hb). rewrite (Hall k v Hkv) in Hb. discriminate.
Qed.

(** C4: [containsBinary] is true exactly when some top-level value of the
    payload is a binary blob or stream; it is false for the empty mapping,
    for mappings holding only strings and for mappings holding only numbers;
    and a top-level value that is a nested object or array never counts,
    whatever it holds inside. *)
Theorem containsBinary_top_level :
  (∀ payload : gmap string JsValue,
     containsBinary payload = true ↔
     ∃ k v, payload !! k = Some v ∧ isBinary v = true)
  ∧ containsBinary ∅ = false
  ∧ (∀ payload : gmap string JsValue,
       (∀ k v, payload !! k = Some v → ∃ s, v = JsString s) →
       containsBinary payload = false)
  ∧ (∀ payload : gmap string JsValue,
       (∀ k v, payload !! k = Some v → ∃ n, v = JsNumber n) →
       containsBinary payload = false)
  ∧ (∀ payload : gmap string JsValue,
       (∀ k v, payload !! k = Some v →
               (∃ fields, v = JsObject fields) ∨ (∃ items, v = JsArray items)) →
       containsBinary payload = false).
Proof.
  split; [exact containsBinary_true_iff|].
  split; [reflexivity|].
  repeat split; intros payload Hall; apply containsBinary_false_iff;
    intros k v Hkv; specialize (Hall k v Hkv).
  - destruct Hall as [s ->]. reflexivity.
  - destruct Hall as [n ->]. reflexivity.
  - destruct Hall as [[m ->] | [l ->]]; reflexivity.
Qed.

Lemma containsBinary_top_level_witness :
  containsBinary {[ "doc" := JsObject {[ "file" := JsBlob [] ]} ]} = false
  ∧ containsBinary {[ "name" := JsString "alice" ]} = false
  ∧ containsBinary {[ "amount" := JsNumber 5 ]} = false
  ∧ containsBinary {[ "file" := JsStream [] ]} = true.
Proof.
  destruct containsBinary_top_level as (Hiff & _ & Hstr & Hnum & Hnest).
  split; [|split; [|split]].
  - apply Hnest. intros k v [_ <-]%lookup_singleton_Some. left. eauto.
  - apply Hstr. intros k v [_ <-]%lookup_singleton_Some. eauto.
  - apply Hnum. intros k v [_ <-]%lookup_singleton_Some. eauto.
  - apply Hiff. exists "file", (JsStream []).
    split; [apply lookup_singleton_eq | reflexivity].
Defined.

(** ** invoke and upload *)

Section Verbs.

Context {S AnyPromise : Type}.
Variable exec : RequestBuilder → ApiConfiguration → option S → AnyPromise.
Variable env : gmap string string.
Variable this : PaxfulApi.t S.

(** Whatever the executor is, a verb applies it to the request it also
    hands to the recording executor. *)
Lemma upload_delegates url payload method :
  PaxfulApi.upload exec env this url payload method =
  let d := PaxfulApi.upload mkDelegated env this url payload method in
  exec (request d) (config d) (store d).
Proof. reflexivity. Qed.

Lemma invoke_delegates url payload :
  PaxfulApi.invoke exec env this url payload =
  let d := PaxfulApi.invoke mkDelegated env this url payload in
  exec (request d) (config d) (store d).
Proof.
  unfold PaxfulApi.invoke.
  destruct payload as [p|]; simpl; [destruct (containsBinary p)|];
    reflexivity.
Qed.

(** The request [invoke] builds on its own path, for a payload without
    binary values (or no payload). *)
Lemma invoke_plain url payload :
  from_option containsBinary false payload = false →
  request (PaxfulApi.invoke mkDelegated env this url payload) =
  {| rb_url := dataHostUrl env url;
     rb_method := if endsWith url "currency/btc" then "GET" else "POST";
     rb_acceptKind := AcceptJson;
     rb_bodyKind := if payload is Some _ then BodyForm else BodyNone;
     rb_body := JsObject <$> payload;
     rb_urlParams := ∅ |}.
Proof.
  intros Hnb. unfold PaxfulApi.invoke.
  destruct payload as [p|]; simpl in *; rewrite ?Hnb;
    destruct (endsWith url "currency/btc"); reflexivity.
Qed.

End Verbs.

(** C1: on a payload with a binary value [invoke] is [upload] with the
    default method, and what is delegated to the executor is a POST request
    whose body is the payload in multipart encoding; [upload] renders
    multipart whatever method it is given. *)
Theorem invoke_binary_routes_to_upload {S AnyPromise : Type}
    (exec : RequestBuilder → ApiConfiguration → option S → AnyPromise)
    (env : gmap string string) (this : PaxfulApi.t S) (url : string)
    (payload : gmap string JsValue) :
  containsBinary payload = true →
  PaxfulApi.invoke exec env this url (Some payload)
    = PaxfulApi.upload exec env this url payload None
  ∧ delegates (λ R e, PaxfulApi.invoke e env this url (Some payload)) exec this
  ∧ (let rb := request (PaxfulApi.invoke mkDelegated env this url (Some payload)) in
     rb_bodyKind rb = BodyMultipart ∧ rb_body rb = Some (JsObject payload)
     ∧ rb_method rb = "POST" ∧ rb_acceptKind rb = AcceptJson
     ∧ rb_url rb = dataHostUrl env url)
  ∧ (∀ method,
       delegates (λ R e, PaxfulApi.upload e env this url payload method) exec this
       ∧ rb_bodyKind (request (PaxfulApi.upload mkDelegated env this url payload method))
         = BodyMultipart).
Proof.
  intros Hb. unfold delegates, PaxfulApi.invoke, PaxfulApi.upload.
  simpl. rewrite Hb. repeat split; reflexivity.
Qed.

Lemma invoke_binary_routes_to_upload_witness :
  let payload : gmap string JsValue :=
    {[ "file" := JsBlob []; "name" := JsString "id.png" ]} in
  containsBinary payload = true
  ∧ rb_bodyKind
      (request (PaxfulApi.invoke mkDelegated sampleEnv sampleApi "/kyc/upload"
                  (Some payload))) = BodyMultipart.
Proof.
  split; [vm_compute; reflexivity|].
  apply (invoke_binary_routes_to_upload mkDelegated sampleEnv sampleApi
           "/kyc/upload" {[ "file" := JsBlob []; "name" := JsString "id.png" ]}).
  vm_compute; reflexivity.
Defined.

(** C2 as stated fails: for a payload without binary values the body is
    form-encoded, not JSON, and for a url ending in [currency/btc] the
    method is not POST either. *)
Lemma invoke_json_post_counterexample :
  let payload : gmap string JsValue := {[ "offer_type" := JsString "buy" ]} in
  let rb url :=
    request (PaxfulApi.invoke mkDelegated sampleEnv sampleApi url (Some payload)) in
  payload ≠ ∅ ∧ containsBinary payload = false
  ∧ ¬ (rb_method (rb "/offer/all") = "POST"
       ∧ rb_bodyKind (rb "/offer/all") = BodyJson)
  ∧ rb_method (rb "/currency/btc") ≠ "POST".
Proof.
  split; [apply map_non_empty_singleton|].
  split; [vm_compute; reflexivity|].
  split.
  - intros [_ Hk]. vm_compute in Hk. discriminate.
  - intros Hm. vm_compute in Hm. discriminate.
Qed.

(** C2, amended: for every url and every non-empty payload without binary
    values, [invoke] delegates a request with JSON response parsing whose
    body is the payload as form data; the method is POST, except for a url
    ending in [currency/btc], where it is GET. *)
Theorem invoke_plain_payload_is_form_post {S AnyPromise : Type}
    (exec : RequestBuilder → ApiConfiguration → option S → AnyPromise)
    (env : gmap string string) (this : PaxfulApi.t S) (url : string)
    (payload : gmap string JsValue) :
  payload ≠ ∅ →
  containsBinary payload = false →
  delegates (λ R e, PaxfulApi.invoke e env this url (Some payload)) exec this
  ∧ (let rb := request (PaxfulApi.invoke mkDelegated env this url (Some payload)) in
     rb_acceptKind rb = AcceptJson
     ∧ rb_bodyKind rb = BodyForm ∧ rb_body rb = Some (JsObject payload)
     ∧ (endsWith url "currency/btc" = false → rb_method rb = "POST")
     ∧ (endsWith url "currency/btc" = true → rb_method rb = "GET")).
Proof.
  intros _ Hnb. split.
  - unfold delegates. rewrite invoke_delegates.
    unfold PaxfulApi.invoke. simpl. rewrite Hnb. reflexivity.
  - cbv zeta. rewrite (invoke_plain env this url (Some payload) Hnb). simpl.
    repeat split; intros ->; reflexivity.
Qed.

Lemma invoke_plain_payload_is_form_post_witness :
  let payload : gmap string JsValue := {[ "offer_type" := JsString "buy" ]} in
  let rb :=
    request (PaxfulApi.invoke mkDelegated sampleEnv sampleApi "/offer/all"
               (Some payload)) in
  payload ≠ ∅ ∧ containsBinary payload = false
  ∧ rb_bodyKind rb = BodyForm ∧ rb_method rb = "POST".
Proof.
  pose proof (invoke_plain_payload_is_form_post mkDelegated sampleEnv sampleApi
                "/offer/all" {[ "offer_type" := JsString "buy" ]}
                (map_non_empty_singleton _ _) eq_refl) as (_ & _ & Hk & _ & Hm & _).
  split; [apply map_non_empty_singleton|].
  split; [vm_compute; reflexivity|].
  split; [exact Hk | apply Hm; vm_compute; reflexivity].
Defined.

(** C8: for a url ending in [currency/btc] and a payload without binary
    values (or no payload), [invoke] delegates a GET request; for every
    other url it is POST, and apart from the url and the method the two
    requests are the same: JSON response parsing and the payload, when there
    is one, as form data. *)
Theorem invoke_currency_btc_uses_GET {S AnyPromise : Type}
    (exec : RequestBuilder → ApiConfiguration → option S → AnyPromise)
    (env : gmap string string) (this : PaxfulApi.t S) (url : string)
    (payload : option (gmap string JsValue)) :
  (∃ pre, url = pre ++ "currency/btc") →
  from_option containsBinary false payload = false →
  let rb := request (PaxfulApi.invoke mkDelegated env this url payload) in
  delegates (λ R e, PaxfulApi.invoke e env this url payload) exec this
  ∧ rb_method rb = "GET"
  ∧ rb_acceptKind rb = AcceptJson
  ∧ rb_bodyKind rb = (if payload is Some _ then BodyForm else BodyNone)
  ∧ rb_body rb = (JsObject <$> payload)
  ∧ (∀ url',
       ¬ (∃ pre, url' = pre ++ "currency/btc") →
       let rb' := request (PaxfulApi.invoke mkDelegated env this url' payload) in
       rb_method rb' = "POST"
       ∧ rb_acceptKind rb' = rb_acceptKind rb
       ∧ rb_bodyKind rb' = rb_bodyKind rb
       ∧ rb_body rb' = rb_body rb
       ∧ rb_urlParams rb' = rb_urlParams rb).
Proof.
  intros Hends%endsWith_spec Hnb. cbv zeta.
  rewrite (invoke_plain env this url payload Hnb), Hends. simpl.
  split.
  - unfold delegates. rewrite invoke_delegates. cbv zeta. f_equal.
    + unfold PaxfulApi.invoke.
      destruct payload as [p|]; simpl in *; rewrite ?Hnb; reflexivity.
    + unfold PaxfulApi.invoke.
      destruct payload as [p|]; simpl in *; rewrite ?Hnb; reflexivity.
  - repeat split.
    all: rewrite (invoke_plain env this url' payload Hnb); try reflexivity.
    simpl. destruct (endsWith url' "currency/btc") eqn:He; [|reflexivity].
    apply endsWith_spec in He. contradiction.
Qed.

Lemma invoke_currency_btc_uses_GET_witness :
  let payload : option (gmap string JsValue) :=
    Some {[ "amount" := JsNumber 5 ]} in
  let rb :=
    request (PaxfulApi.invoke mkDelegated sampleEnv sampleApi
               "/paxful/v1/currency/btc" payload) in
  (∃ pre, "/paxful/v1/currency/btc" = pre ++ "currency/btc")
  ∧ from_option containsBinary false payload = false
  ∧ rb_method rb = "GET" ∧ rb_bodyKind rb = BodyForm.
Proof.
  assert (Hpre : ∃ pre, "/paxful/v1/currency/btc" = pre ++ "currency/btc")
    by (exists "/paxful/v1/"; reflexivity).
  pose proof (invoke_currency_btc_uses_GET mkDelegated sampleEnv sampleApi
                "/paxful/v1/currency/btc" (Some {[ "amount" := JsNumber 5 ]})
                Hpre eq_refl) as (_ & Hm & _ & Hk & _).
  split; [exact Hpre|].
  split; [vm_compute; reflexivity|].
  split; [exact Hm | exact Hk].
Defined.

(** C7: every verb delegates to the executor a request of the advertised
    shape: [get] a GET with the given url parameters (none by default), JSON
    response parsing and no body; [post], [put], [patch] and [delete] their
    own method with the optional payload as a JSON body and JSON response
    parsing; [download] binary response parsing and no body, with GET unless
    another method is given. *)
Theorem verbs_build_advertised_requests {S AnyPromise : Type}
    (exec : RequestBuilder → ApiConfiguration → option S → AnyPromise)
    (env : gmap string string) (this : PaxfulApi.t S) (url : string) :
  (∀ params,
     let rb := request (PaxfulApi.get mkDelegated env this url params) in
     delegates (λ R e, PaxfulApi.get e env this url params) exec this
     ∧ rb_url rb = dataHostUrl env url ∧ rb_method rb = "GET"
     ∧ rb_urlParams rb = default ∅ params
     ∧ rb_acceptKind rb = AcceptJson
     ∧ rb_bodyKind rb = BodyNone ∧ rb_body rb = None)
  ∧ (∀ json,
       delegates (λ R e, PaxfulApi.post e env this url json) exec this
       ∧ jsonRequest env url "POST" json
           (request (PaxfulApi.post mkDelegated env this url json)))
  ∧ (∀ json,
       delegates (λ R e, PaxfulApi.put e env this url json) exec this
       ∧ jsonRequest env url "PUT" json
           (request (PaxfulApi.put mkDelegated env this url json)))
  ∧ (∀ json,
       delegates (λ R e, PaxfulApi.patch e env this url json) exec this
       ∧ jsonRequest env url "PATCH" json
           (request (PaxfulApi.patch mkDelegated env this url json)))
  ∧ (∀ json,
       delegates (λ R e, PaxfulApi.delete e env this url json) exec this
       ∧ jsonRequest env url "DELETE" json
           (request (PaxfulApi.delete mkDelegated env this url json)))
  ∧ (∀ method,
       let rb := request (PaxfulApi.download mkDelegated env this url method) in
       delegates (λ R e, PaxfulApi.download e env this url method) exec this
       ∧ rb_url rb = dataHostUrl env url
       ∧ rb_method rb = default "GET" method
       ∧ rb_acceptKind rb = AcceptBinary
       ∧ rb_bodyKind rb = BodyNone ∧ rb_body rb = None).
Proof.
  unfold delegates, jsonRequest.
  repeat split; reflexivity.
Qed.

(** ** Credentials *)

(** C5: when the token acquirer yields a record, [impersonatedCredentials]
    (for every code) and [myCredentials] return that record, and the storage
    of the instance, when there is one, has had exactly that record saved;
    without a storage nothing else changes. *)
Theorem credentials_saved_and_returned {S : Type} `{CredentialStorage S}
    (retrieveImpersonatedCredentials : ApiConfiguration → string → Promise Credentials)
    (retrievePersonalCredentials : ApiConfiguration → Promise Credentials)
    (this : PaxfulApi.t S) (code : string) (c : Credentials) :
  (retrieveImpersonatedCredentials (PaxfulApi.apiConfiguration this) code
     = Resolved c →
   PaxfulApi.impersonatedCredentials retrieveImpersonatedCredentials this code
     = (Resolved c,
        PaxfulApi.mk (PaxfulApi.apiConfiguration this)
          (saveCredentials c <$> PaxfulApi.credentialStorage this)))
  ∧ (retrievePersonalCredentials (PaxfulApi.apiConfiguration this)
       = Resolved c →
     PaxfulApi.myCredentials retrievePersonalCredentials this
       = (Resolved c,
          PaxfulApi.mk (PaxfulApi.apiConfiguration this)
            (saveCredentials c <$> PaxfulApi.credentialStorage this))).
Proof.
  unfold PaxfulApi.impersonatedCredentials, PaxfulApi.myCredentials,
    PaxfulApi.saveToken.
  split; intros ->; destruct this as [cfg [st|]]; reflexivity.
Qed.

Lemma credentials_saved_and_returned_witness :
  let acquire (_ : ApiConfiguration) (_ : string) := Resolved sampleCredentials in
  let out := PaxfulApi.impersonatedCredentials acquire sampleApi "code-42" in
  acquire (PaxfulApi.apiConfiguration sampleApi) "code-42"
    = Resolved sampleCredentials
  ∧ out.1 = Resolved sampleCredentials
  ∧ (saved <$> PaxfulApi.credentialStorage out.2) = Some [sampleCredentials]
  ∧ (PaxfulApi.credentialStorage out.2 ≫= loadCredentials)
    = Some sampleCredentials.
Proof.
  pose proof (credentials_saved_and_returned
                (λ _ _, Resolved sampleCredentials)
                (λ _, Resolved sampleCredentials)
                sampleApi "code-42" sampleCredentials) as [Himp _].
  cbv zeta. rewrite (Himp eq_refl).
  repeat split; reflexivity.
Defined.

(** C10: when the token acquisition fails, [impersonatedCredentials] and
    [myCredentials] fail with the same error and hand back the instance as
    it was: no save is applied to the storage, whatever the storage is. *)
Theorem failed_acquisition_saves_nothing {S : Type} `{CredentialStorage S}
    (retrieveImpersonatedCredentials : ApiConfiguration → string → Promise Credentials)
    (retrievePersonalCredentials : ApiConfiguration → Promise Credentials)
    (this : PaxfulApi.t S) (code : string) (e : Error) :
  (retrieveImpersonatedCredentials (PaxfulApi.apiConfiguration this) code
     = Rejected e →
   PaxfulApi.impersonatedCredentials retrieveImpersonatedCredentials this code
     = (Rejected e, this))
  ∧ (retrievePersonalCredentials (PaxfulApi.apiConfiguration this)
       = Rejected e →
     PaxfulApi.myCredentials retrievePersonalCredentials this
       = (Rejected e, this)).
Proof.
  unfold PaxfulApi.impersonatedCredentials, PaxfulApi.myCredentials,
    PaxfulApi.saveToken.
  split; intros ->; destruct this as [cfg [st|]]; reflexivity.
Qed.

Lemma failed_acquisition_saves_nothing_witness :
  let acquire (_ : ApiConfiguration) : Promise Credentials :=
    Rejected AuthExchangeError in
  let out := PaxfulApi.myCredentials acquire sampleApi in
  acquire (PaxfulApi.apiConfiguration sampleApi) = Rejected AuthExchangeError
  ∧ out.1 = Rejected AuthExchangeError
  ∧ (saved <$> PaxfulApi.credentialStorage out.2) = Some []
  ∧ (PaxfulApi.credentialStorage out.2 ≫= loadCredentials) = None.
Proof.
  pose proof (failed_acquisition_saves_nothing
                (λ _ _, Rejected AuthExchangeError)
                (λ _, Rejected AuthExchangeError)
                sampleApi "" AuthExchangeError) as [_ Hmy].
  cbv zeta. rewrite (Hmy eq_refl).
  repeat split; reflexivity.
Defined.

(** C9: without a credential storage [getProfile] fails with the error
    "No credentials storage defined.", whatever the profile command would
    do, so the command (the only place a network call is made) is not
    consulted; with a storage it is the profile command applied to that
    storage and the configuration. *)
Theorem getProfile_requires_storage {S Profile : Type}
    (commands_getProfile : S → ApiConfiguration → Promise Profile)
    (this : PaxfulApi.t S) :
  (PaxfulApi.credentialStorage this = None →
   ∀ command : S → ApiConfiguration → Promise Profile,
     PaxfulApi.getProfile command this
       = Rejected (JsError "No credentials storage defined."))
  ∧ (∀ storage,
       PaxfulApi.credentialStorage this = Some storage →
       PaxfulApi.getProfile commands_getProfile this
         = commands_getProfile storage (PaxfulApi.apiConfiguration this)).
Proof.
  unfold PaxfulApi.getProfile. split.
  - intros -> command. reflexivity.
  - intros storage ->. reflexivity.
Qed.

Lemma getProfile_requires_storage_witness :
  let command (_ : CellStorage) (_ : ApiConfiguration) : Promise string :=
    Resolved "alice" in
  let nostore : PaxfulApi.t CellStorage := PaxfulApi.mk sampleConfiguration None in
  PaxfulApi.credentialStorage nostore = None
  ∧ PaxfulApi.getProfile command nostore
    = Rejected (JsError "No credentials storage defined.")
  ∧ PaxfulApi.credentialStorage sampleApi = Some (mkCellStorage None [])
  ∧ PaxfulApi.getProfile command sampleApi = Resolved "alice".
Proof.
  cbv zeta. split; [reflexivity|]. split.
  - apply (proj1 (getProfile_requires_storage (λ _ _, Resolved "alice")
                    (PaxfulApi.mk sampleConfiguration None))). reflexivity.
  - split; [reflexivity|].
    apply (proj2 (getProfile_requires_storage (λ _ _, Resolved "alice")
                    sampleApi) (mkCellStorage None [])). reflexivity.
Defined.

(** ** Construction *)

Lemma host_names_differ : PAXFUL_OAUTH_HOST ≠ PAXFUL_DATA_HOST.
Proof. discriminate. Qed.

(** The environment the constructor leaves behind, variable by variable. *)
Lemma new_env_oauth {S : Type} configuration (storage : option S)
    (env : gmap string string) :
  (PaxfulApi.new configuration storage env).2 !! PAXFUL_OAUTH_HOST =
  Some (match env !! PAXFUL_OAUTH_HOST with
        | Some v => if bool_decide (v = "") then PaxfulApi.defaultOAuthHost else v
        | None => PaxfulApi.defaultOAuthHost
        end).
Proof.
  unfold PaxfulApi.new, PaxfulApi.validateAndSetDefaultParameters. simpl.
  pose proof host_names_differ as Hne.
  assert (∀ (a b : string) (m : gmap string string) (x : bool),
            (if x then <[PAXFUL_DATA_HOST := a]> m
             else <[PAXFUL_DATA_HOST := b]> m) !! PAXFUL_OAUTH_HOST
            = m !! PAXFUL_OAUTH_HOST) as Hskip.
  { intros a b m [|]; apply lookup_insert_ne; congruence. }
  rewrite Hskip.
  destruct (env !! PAXFUL_OAUTH_HOST) as [v|] eqn:Hv.
  - repeat case_bool_decide; simplify_eq; rewrite lookup_insert_eq; try done.
  - rewrite bool_decide_eq_false_2 by discriminate.
    now rewrite lookup_insert_eq.
Qed.

Lemma new_env_data {S : Type} configuration (storage : option S)
    (env : gmap string string) :
  (PaxfulApi.new configuration storage env).2 !! PAXFUL_DATA_HOST =
  Some (match env !! PAXFUL_DATA_HOST with
        | Some v => if bool_decide (v = "") then PaxfulApi.defaultDataHost else v
        | None => PaxfulApi.defaultDataHost
        end).
Proof.
  unfold PaxfulApi.new, PaxfulApi.validateAndSetDefaultParameters. simpl.
  pose proof host_names_differ as Hne.
  set (env1 := if bool_decide (env !! PAXFUL_OAUTH_HOST = Some "") then _ else _).
  assert (env1 !! PAXFUL_DATA_HOST = env !! PAXFUL_DATA_HOST) as ->.
  { subst env1. case_bool_decide; apply lookup_insert_ne; congruence. }
  unfold PaxfulApi.falsy.
  destruct (env !! PAXFUL_DATA_HOST) as [v|] eqn:Hv; simpl.
  - repeat case_bool_decide; simplify_eq; simpl;
      rewrite lookup_insert_eq; try done.
  - now rewrite lookup_insert_eq.
Qed.

Lemma new_scope {S : Type} configuration (storage : option S)
    (env : gmap string string) :
  scope (PaxfulApi.apiConfiguration (PaxfulApi.new configuration storage env).1) =
  match scope configuration with
  | Some ((_ :: _) as sc) => Some sc
  | _ => Some ["profile"; "email"]
  end.
Proof.
  unfold PaxfulApi.new, PaxfulApi.validateAndSetDefaultParameters. simpl.
  destruct (scope configuration) as [[|x sc]|] eqn:Hsc; simpl;
    try reflexivity; exact Hsc.
Qed.

(** C6: after construction, a scope that was absent or empty is
    ["profile"; "email"]; the OAuth host and data host settings (the
    environment variables [PAXFUL_OAUTH_HOST] and [PAXFUL_DATA_HOST]) that
    were unset or empty hold https://accounts.paxful.com and
    https://api.paxful.com; a host setting that held a non-empty value still
    holds it. *)
Theorem constructor_fills_defaults {S : Type}
    (configuration : ApiConfiguration) (storage : option S)
    (env : gmap string string) :
  let this := (PaxfulApi.new configuration storage env).1 in
  let env' := (PaxfulApi.new configuration storage env).2 in
  (scope configuration = None ∨ scope configuration = Some [] →
   scope (PaxfulApi.apiConfiguration this) = Some ["profile"; "email"])
  ∧ (env !! PAXFUL_OAUTH_HOST = None ∨ env !! PAXFUL_OAUTH_HOST = Some "" →
     env' !! PAXFUL_OAUTH_HOST = Some "https://accounts.paxful.com")
  ∧ (env !! PAXFUL_DATA_HOST = None ∨ env !! PAXFUL_DATA_HOST = Some "" →
     env' !! PAXFUL_DATA_HOST = Some "https://api.paxful.com")
  ∧ (∀ v, env !! PAXFUL_OAUTH_HOST = Some v → v ≠ "" →
          env' !! PAXFUL_OAUTH_HOST = Some v)
  ∧ (∀ v, env !! PAXFUL_DATA_HOST = Some v → v ≠ "" →
          env' !! PAXFUL_DATA_HOST = Some v).
Proof.
  cbv zeta. rewrite new_scope, new_env_oauth, new_env_data.
  repeat split.
  - intros [-> | ->]; reflexivity.
  - intros [-> | ->]; reflexivity.
  - intros [-> | ->]; reflexivity.
  - intros v -> Hv. now rewrite bool_decide_eq_false_2.
  - intros v -> Hv. now rewrite bool_decide_eq_false_2.
Qed.

Lemma constructor_fills_defaults_witness :
  let configuration :=
    {| clientId := "client"; clientSecret := "secret";
       redirectUri := None; scope := Some [] |} in
  let env : gmap string string :=
    {[ PAXFUL_OAUTH_HOST := ""; PAXFUL_DATA_HOST := "https://staging.example" ]} in
  let out := PaxfulApi.new configuration (None : option CellStorage) env in
  (scope configuration = None ∨ scope configuration = Some [])
  ∧ scope (PaxfulApi.apiConfiguration out.1) = Some ["profile"; "email"]
  ∧ (env !! PAXFUL_OAUTH_HOST = None ∨ env !! PAXFUL_OAUTH_HOST = Some "")
  ∧ out.2 !! PAXFUL_OAUTH_HOST = Some "https://accounts.paxful.com"
  ∧ env !! PAXFUL_DATA_HOST = Some "https://staging.example"
  ∧ out.2 !! PAXFUL_DATA_HOST = Some "https://staging.example".
Proof.
  cbv zeta.
  pose proof (constructor_fills_defaults
                {| clientId := "client"; clientSecret := "secret";
                   redirectUri := None; scope := Some [] |}
                (None : option CellStorage)
                {[ PAXFUL_OAUTH_HOST := "";
                   PAXFUL_DATA_HOST := "https://staging.example" ]})
    as (Hscope & Hoauth & _ & _ & Hdata).
  assert (Hs : scope {| clientId := "client"; clientSecret := "secret";
                        redirectUri := None; scope := Some [] |} = None
               ∨ scope {| clientId := "client"; clientSecret := "secret";
                          redirectUri := None; scope := Some [] |} = Some [])
    by (right; reflexivity).
  assert (Ho : ({[ PAXFUL_OAUTH_HOST := "";
                   PAXFUL_DATA_HOST := "https://staging.example" ]}
                  : gmap string string) !! PAXFUL_OAUTH_HOST = None
               ∨ ({[ PAXFUL_OAUTH_HOST := "";
                     PAXFUL_DATA_HOST := "https://staging.example" ]}
                    : gmap string string) !! PAXFUL_OAUTH_HOST = Some "")
    by (right; vm_compute; reflexivity).
  assert (Hd : ({[ PAXFUL_OAUTH_HOST := "";
                   PAXFUL_DATA_HOST := "https://staging.example" ]}
                  : gmap string string) !! PAXFUL_DATA_HOST
               = Some "https://staging.example")
    by (vm_compute; reflexivity).
  split; [exact Hs|]. split; [exact (Hscope Hs)|].
  split; [exact Ho|]. split; [exact (Hoauth Ho)|].
  split; [exact Hd|]. apply (Hdata _ Hd). discriminate.
Defined.

(** ** The authenticated executor *)

Section ExecutorProperties.

Import Executor.

Context {S : Type} `{CredentialStorage S}.
Variable host : Host.

Lemma refresh_rejects_with_AuthRefreshError config credentials e :
  refresh host config credentials = Rejected e → e = AuthRefreshError.
Proof.
  unfold refresh. destruct (refreshToken credentials) as [tok|];
    [destruct (refreshGrant host config tok)|]; congruence.
Qed.

(** The whole run of [execute] when the credentials are still valid and
    the first dispatch is answered with an authorization failure. *)
Lemma execute_after_denial requestSpec config (stor : option S)
    credentials r1 :
  resolved host stor = Some credentials →
  (now host < expiresAt credentials)%Z →
  dispatch host 0 requestSpec (accessToken credentials) = HostResponse r1 →
  isAuthFailure (status r1) = true →
  execute host requestSpec config stor =
  match refresh host config credentials with
  | Rejected e =>
      (Rejected e,
       {| trace := [EvDispatch 0 (accessToken credentials); EvRefresh];
          storage := stor |})
  | Resolved c =>
      match dispatch host 1 requestSpec (accessToken c) with
      | NetworkFailure => (Rejected TransportError, retried stor credentials c)
      | HostResponse r2 =>
          if isAuthFailure (status r2)
          then (Rejected AuthorizationDeniedError, retried stor credentials c)
          else parseStep host requestSpec r2 (retried stor credentials c)
      end
  end.
Proof.
  intros Hres Hfresh Hd1 Hauth.
  unfold resolved in Hres.
  unfold execute, run, stored, refreshStep, dispatchStep, persist, emit,
    fail, retried.
  unfold mbind, mret, Exec_bind, Exec_ret in *.
  cbn beta iota delta [trace storage fst snd].
  rewrite Hres, bool_decide_eq_false_2 by lia.
  cbn beta iota delta [trace storage fst snd].
  rewrite Hd1, Hauth.
  destruct (refresh host config credentials) as [c|e]; [|reflexivity].
  destruct stor as [st|]; cbn beta iota delta [trace storage fst snd];
    (destruct (dispatch host 1 requestSpec (accessToken c)) as [r2|];
     [destruct (isAuthFailure (status r2))|]); reflexivity.
Qed.

Lemma parseStep_keeps_state requestSpec r (s : @ExecState S) :
  (parseStep host requestSpec r s).2 = s.
Proof.
  unfold parseStep.
  destruct (rb_acceptKind requestSpec); [destruct (parseJson host (body r))|];
    reflexivity.
Qed.

Lemma retried_counts (stor : option S) credentials c :
  refreshes (trace (retried stor credentials c)) = 1%nat
  ∧ dispatches (trace (retried stor credentials c)) = 2%nat.
Proof. destruct stor; split; reflexivity. Qed.

End ExecutorProperties.

(** C3 as stated fails: with valid stored credentials that carry no refresh
    token and a host answering 401, the one refresh fails with
    [AuthRefreshError] and no retry dispatch is made. *)
Lemma execute_retry_counterexample :
  let stor := Some (mkCellStorage (Some personalCredentials) []) in
  let out :=
    Executor.execute denyingHost sampleRequest sampleConfiguration stor in
  Executor.resolved denyingHost stor = Some personalCredentials
  ∧ (Executor.now denyingHost < expiresAt personalCredentials)%Z
  ∧ Executor.dispatch denyingHost 0 sampleRequest (accessToken personalCredentials)
    = Executor.HostResponse (Executor.mkResponse 401 "")
  ∧ Executor.isAuthFailure 401 = true
  ∧ ¬ (Executor.refreshes (Executor.trace out.2) = 1%nat
       ∧ Executor.dispatches (Executor.trace out.2) = 2%nat)
  ∧ Executor.trace out.2 = [Executor.EvDispatch 0 "token-0"; Executor.EvRefresh]
  ∧ out.1 = Rejected AuthRefreshError.
Proof.
  cbv zeta. repeat split; try reflexivity.
  intros [_ Hd]. vm_compute in Hd. discriminate.
Qed.

(** C3, amended: when the credentials are still valid (so no refresh has
    been made in this call) and the first dispatch is answered with 401 or
    403, exactly one refresh is attempted; if it fails, [execute] fails with
    [AuthRefreshError] after that single dispatch; if it succeeds, exactly
    one retry dispatch is made, two dispatches in all, and if the retry is
    answered with 401 or 403 as well, [execute] fails with
    [AuthorizationDeniedError]. *)
Theorem execute_refreshes_and_retries_once {S : Type} `{CredentialStorage S}
    (host : Executor.Host) (requestSpec : RequestBuilder)
    (config : ApiConfiguration) (credentialStorage : option S)
    (credentials : Credentials) (r1 : Executor.Response) :
  Executor.resolved host credentialStorage = Some credentials →
  (Executor.now host < expiresAt credentials)%Z →
  Executor.dispatch host 0 requestSpec (accessToken credentials)
    = Executor.HostResponse r1 →
  Executor.isAuthFailure (Executor.status r1) = true →
  let out := Executor.execute host requestSpec config credentialStorage in
  Executor.refreshes (Executor.trace out.2) = 1%nat
  ∧ (∀ e, Executor.refresh host config credentials = Rejected e →
          out.1 = Rejected AuthRefreshError
          ∧ Executor.dispatches (Executor.trace out.2) = 1%nat)
  ∧ (∀ c, Executor.refresh host config credentials = Resolved c →
          Executor.dispatches (Executor.trace out.2) = 2%nat
          ∧ (∀ r2,
               Executor.dispatch host 1 requestSpec (accessToken c)
                 = Executor.HostResponse r2 →
               Executor.isAuthFailure (Executor.status r2) = true →
               out.1 = Rejected AuthorizationDeniedError)).
Proof.
  intros Hres Hfresh Hd1 Hauth. cbv zeta.
  rewrite (execute_after_denial host requestSpec config credentialStorage
             credentials r1 Hres Hfresh Hd1 Hauth).
  pose proof (retried_counts credentialStorage credentials) as Hcnt.
  destruct (Executor.refresh host config credentials) as [c|e] eqn:Hr.
  - destruct (Hcnt c) as [Hrc Hdc].
    assert (Hstate :
      (match Executor.dispatch host 1 requestSpec (accessToken c) with
       | Executor.HostResponse r2 =>
           if Executor.isAuthFailure (Executor.status r2)
           then (Rejected AuthorizationDeniedError,
                 Executor.retried credentialStorage credentials c)
           else Executor.parseStep host requestSpec r2
                  (Executor.retried credentialStorage credentials c)
       | Executor.NetworkFailure =>
           (Rejected TransportError,
            Executor.retried credentialStorage credentials c)
       end).2 = Executor.retried credentialStorage credentials c).
    { destruct (Executor.dispatch host 1 requestSpec (accessToken c)) as [r2|];
        [destruct (Executor.isAuthFailure (Executor.status r2))|];
        try reflexivity.
      apply parseStep_keeps_state. }
    rewrite Hstate. split; [exact Hrc|]. split; [intros e' [=]|].
    intros c' [= <-]. split; [exact Hdc|].
    intros r2 -> ->. reflexivity.
  - split; [reflexivity|]. split; [|intros c [=]].
    intros e' [= <-]. split; [|reflexivity].
    simpl. f_equal. eapply refresh_rejects_with_AuthRefreshError, Hr.
Qed.

Lemma execute_refreshes_and_retries_once_witness :
  let stor := Some (mkCellStorage (Some sampleCredentials) []) in
  let out :=
    Executor.execute denyingHost sampleRequest sampleConfiguration stor in
  Executor.resolved denyingHost stor = Some sampleCredentials
  ∧ (Executor.now denyingHost < expiresAt sampleCredentials)%Z
  ∧ Executor.isAuthFailure 401 = true
  ∧ Executor.refreshes (Executor.trace out.2) = 1%nat
  ∧ Executor.dispatches (Executor.trace out.2) = 2%nat
  ∧ out.1 = Rejected AuthorizationDeniedError.
Proof.
  cbv zeta.
  assert (Hnow : (Executor.now denyingHost < expiresAt sampleCredentials)%Z)
    by (vm_compute; reflexivity).
  pose proof (execute_refreshes_and_retries_once denyingHost sampleRequest
                sampleConfiguration
                (Some (mkCellStorage (Some sampleCredentials) []))
                sampleCredentials (Executor.mkResponse 401 "")
                eq_refl Hnow eq_refl eq_refl) as (Hr & _ & Hok).
  destruct (Hok _ eq_refl) as [Hd Hdenied].
  split; [reflexivity|]. split; [exact Hnow|]. split; [reflexivity|].
  split; [exact Hr|]. split; [exact Hd|].
  apply (Hdenied (Executor.mkResponse 401 "")); reflexivity.
Defined.

(** * Further properties of the facade *)

(** ** Construction *)

Lemma new_instance {S : Type} configuration (storage : option S)
    (env : gmap string string) :
  (PaxfulApi.new configuration storage env).1 =
  PaxfulApi.mk
    (match scope configuration with
     | Some (_ :: _) => configuration
     | _ => set_scope ["profile"; "email"] configuration
     end) storage.
Proof.
  unfold PaxfulApi.new, PaxfulApi.validateAndSetDefaultParameters. simpl.
  destruct (scope configuration) as [[|x sc]|]; reflexivity.
Qed.

Lemma new_env_other {S : Type} configuration (storage : option S)
    (env : gmap string string) (k : string) :
  k ≠ PAXFUL_OAUTH_HOST → k ≠ PAXFUL_DATA_HOST →
  (PaxfulApi.new configuration storage env).2 !! k = env !! k.
Proof.
  intros Ho Hd.
  unfold PaxfulApi.new, PaxfulApi.validateAndSetDefaultParameters. simpl.
  set (env1 := if bool_decide (env !! PAXFUL_OAUTH_HOST = Some "") then _ else _).
  assert (env1 !! k = env !! k) as <-.
  { subst env1. case_bool_decide; apply lookup_insert_ne; congruence. }
  destruct (_ || _); apply lookup_insert_ne; congruence.
Qed.

(** An environment whose two host variables are already set and non-empty is
    left exactly as it is. *)
Lemma new_env_fixed {S : Type} configuration (storage : option S)
    (env : gmap string string) (o d : string) :
  env !! PAXFUL_OAUTH_HOST = Some o → o ≠ "" →
  env !! PAXFUL_DATA_HOST = Some d → d ≠ "" →
  (PaxfulApi.new configuration storage env).2 = env.
Proof.
  intros Ho Hone Hd Hdne. apply map_eq. intros k.
  destruct (decide (k = PAXFUL_OAUTH_HOST)) as [->|Hko].
  - rewrite new_env_oauth, Ho. now rewrite bool_decide_eq_false_2.
  - destruct (decide (k = PAXFUL_DATA_HOST)) as [->|Hkd].
    + rewrite new_env_data, Hd. now rewrite bool_decide_eq_false_2.
    + now apply new_env_other.
Qed.

Lemma new_hosts_set {S : Type} configuration (storage : option S)
    (env : gmap string string) :
  ∃ o d,
    (PaxfulApi.new configuration storage env).2 !! PAXFUL_OAUTH_HOST = Some o
    ∧ o ≠ ""
    ∧ (PaxfulApi.new configuration storage env).2 !! PAXFUL_DATA_HOST = Some d
    ∧ d ≠ "".
Proof.
  eexists _, _. rewrite new_env_oauth, new_env_data.
  split; [reflexivity|]. split; [|split; [reflexivity|]].
  - destruct (env !! PAXFUL_OAUTH_HOST) as [v|]; [case_bool_decide|]; done.
  - destruct (env !! PAXFUL_DATA_HOST) as [v|]; [case_bool_decide|]; done.
Qed.

(** X1: constructing is idempotent.  Constructing again from the
    configuration and the environment a construction left behind gives the
    same instance and the same environment; and any later construction,
    with any configuration and storage, leaves that environment as it is. *)
Theorem constructor_idempotent {S : Type}
    (configuration configuration2 : ApiConfiguration)
    (storage storage2 : option S) (env : gmap string string) :
  let out := PaxfulApi.new configuration storage env in
  PaxfulApi.new (PaxfulApi.apiConfiguration out.1) storage out.2 = out
  ∧ (PaxfulApi.new configuration2 storage2 out.2).2 = out.2.
Proof.
  cbv zeta.
  destruct (new_hosts_set configuration storage env)
    as (o & d & Ho & Hone & Hd & Hdne).
  split; [|now apply (new_env_fixed _ _ _ o d)].
  apply injective_projections.
  - rewrite !new_instance. simpl.
    destruct (scope configuration) as [[|x sc]|] eqn:Hsc; simpl;
      rewrite ?Hsc; reflexivity.
  - now apply (new_env_fixed _ _ _ o d).
Qed.

(** X2: the constructor touches nothing else.  Every other environment
    variable keeps its value, the client id, client secret and redirect URI
    of the configuration are kept, a non-empty scope is kept as given, and
    the storage held is the one supplied. *)
Theorem constructor_frame {S : Type}
    (configuration : ApiConfiguration) (storage : option S)
    (env : gmap string string) :
  let this := (PaxfulApi.new configuration storage env).1 in
  let env' := (PaxfulApi.new configuration storage env).2 in
  (∀ k, k ≠ PAXFUL_OAUTH_HOST → k ≠ PAXFUL_DATA_HOST → env' !! k = env !! k)
  ∧ clientId (PaxfulApi.apiConfiguration this) = clientId configuration
  ∧ clientSecret (PaxfulApi.apiConfiguration this) = clientSecret configuration
  ∧ redirectUri (PaxfulApi.apiConfiguration this) = redirectUri configuration
  ∧ (∀ sc, scope configuration = Some sc → sc ≠ [] →
           PaxfulApi.apiConfiguration this = configuration)
  ∧ PaxfulApi.credentialStorage this = storage.
Proof.
  cbv zeta. split; [intros k; apply new_env_other|].
  rewrite new_instance. simpl.
  repeat split.
  - destruct (scope configuration) as [[|x sc]|]; reflexivity.
  - destruct (scope configuration) as [[|x sc]|]; reflexivity.
  - destruct (scope configuration) as [[|x sc]|]; reflexivity.
  - intros sc -> Hne. destruct sc; [contradiction | reflexivity].
Qed.

Lemma constructor_frame_witness :
  let configuration :=
    {| clientId := "client"; clientSecret := "secret";
       redirectUri := Some "https://app.example/cb";
       scope := Some ["trades"] |} in
  let env : gmap string string := {[ "HOME" := "/root" ]} in
  let out := PaxfulApi.new configuration (None : option CellStorage) env in
  out.2 !! "HOME" = Some "/root"
  ∧ scope configuration = Some ["trades"]
  ∧ PaxfulApi.apiConfiguration out.1 = configuration.
Proof.
  cbv zeta.
  pose proof (constructor_frame
                {| clientId := "client"; clientSecret := "secret";
                   redirectUri := Some "https://app.example/cb";
                   scope := Some ["trades"] |}
                (None : option CellStorage) {[ "HOME" := "/root" ]})
    as (Henv & _ & _ & _ & Hscope & _).
  split; [|split; [reflexivity|]].
  - rewrite Henv by discriminate. vm_compute; reflexivity.
  - apply (Hscope ["trades"]); [reflexivity | discriminate].
Defined.

(** X3: what construction establishes, whatever it is given: both host
    variables are set to non-empty values, and the scope of the instance's
    configuration is present and non-empty. *)
Theorem constructor_establishes_settings {S : Type}
    (configuration : ApiConfiguration) (storage : option S)
    (env : gmap string string) :
  let this := (PaxfulApi.new configuration storage env).1 in
  let env' := (PaxfulApi.new configuration storage env).2 in
  (∃ o, env' !! PAXFUL_OAUTH_HOST = Some o ∧ o ≠ "")
  ∧ (∃ d, env' !! PAXFUL_DATA_HOST = Some d ∧ d ≠ "")
  ∧ (∃ sc, scope (PaxfulApi.apiConfiguration this) = Some sc ∧ sc ≠ []).
Proof.
  cbv zeta.
  destruct (new_hosts_set configuration storage env)
    as (o & d & Ho & Hone & Hd & Hdne).
  split; [eauto|]. split; [eauto|].
  rewrite new_scope.
  destruct (scope configuration) as [[|x sc]|]; eexists; split;
    try reflexivity; discriminate.
Qed.

(** ** Verbs *)

Lemma invoke_binary {S : Type} (env : gmap string string)
    (this : PaxfulApi.t S) (url : string) (payload : gmap string JsValue) :
  containsBinary payload = true →
  PaxfulApi.invoke mkDelegated env this url (Some payload) =
  PaxfulApi.upload mkDelegated env this url payload None.
Proof. intros Hb. unfold PaxfulApi.invoke. simpl. now rewrite Hb. Qed.

Lemma verbs_target_data_host {S : Type} (env : gmap string string)
    (this : PaxfulApi.t S) (url : string) :
  verbsTarget env this url (dataHostUrl env url).
Proof.
  unfold verbsTarget. split; [|repeat split].
  intros payload.
  destruct (from_option containsBinary false payload) eqn:Hb.
  - destruct payload as [p|]; [|discriminate].
    now rewrite invoke_binary.
  - now rewrite invoke_plain.
Qed.

(** X4: where requests go after construction.  With the environment the
    constructor leaves behind, every verb builds its request for the data
    host followed by the given url: the default https://api.paxful.com when
    [PAXFUL_DATA_HOST] was unset or empty, the value it held otherwise. *)
Theorem requests_target_data_host {S : Type}
    (configuration : ApiConfiguration) (storage : option S)
    (env : gmap string string) (url : string) :
  let this := (PaxfulApi.new configuration storage env).1 in
  let env' := (PaxfulApi.new configuration storage env).2 in
  (env !! PAXFUL_DATA_HOST = None ∨ env !! PAXFUL_DATA_HOST = Some "" →
   verbsTarget env' this url ("https://api.paxful.com" ++ url))
  ∧ (∀ v, env !! PAXFUL_DATA_HOST = Some v → v ≠ "" →
          verbsTarget env' this url (v ++ url)).
Proof.
  cbv zeta.
  pose proof (verbs_target_data_host
                (PaxfulApi.new configuration storage env).2
                (PaxfulApi.new configuration storage env).1 url) as Hall.
  unfold dataHostUrl in Hall. rewrite new_env_data in Hall.
  unfold template in Hall.
  split.
  - intros [Hd | Hd]; rewrite Hd in Hall; exact Hall.
  - intros v Hd Hv. rewrite Hd, bool_decide_eq_false_2 in Hall by exact Hv.
    exact Hall.
Qed.

Lemma requests_target_data_host_witness :
  let out :=
    PaxfulApi.new sampleConfiguration (None : option CellStorage) ∅ in
  (∅ : gmap string string) !! PAXFUL_DATA_HOST = None
  ∧ rb_url (request (PaxfulApi.get mkDelegated out.2 out.1 "/offer/all" None))
    = "https://api.paxful.com/offer/all".
Proof.
  cbv zeta.
  pose proof (requests_target_data_host sampleConfiguration
                (None : option CellStorage) ∅ "/offer/all") as [Hunset _].
  split; [reflexivity|].
  destruct (Hunset (or_introl eq_refl)) as (_ & _ & _ & Hget & _).
  apply Hget.
Defined.

(** X5: [invoke] is the [upload] call exactly when the payload has a binary
    value: the two delegate the same call if and only if [containsBinary]
    holds of the payload. *)
Theorem invoke_is_upload_iff_binary {S : Type} (env : gmap string string)
    (this : PaxfulApi.t S) (url : string) (payload : gmap string JsValue) :
  PaxfulApi.invoke mkDelegated env this url (Some payload)
    = PaxfulApi.upload mkDelegated env this url payload None
  ↔ containsBinary payload = true.
Proof.
  split; [|apply invoke_binary].
  destruct (containsBinary payload) eqn:Hb; [reflexivity|].
  intros Heq. apply (f_equal (λ d, rb_bodyKind (request d))) in Heq.
  rewrite (invoke_plain env this url (Some payload) Hb) in Heq.
  discriminate.
Qed.

(** X6: what [invoke] builds on every path, with or without payload, binary
    or not: the request asks for JSON parsing, carries no url parameters,
    never has a JSON-encoded body, has a body exactly when a payload was
    given (an empty payload object included) and then the payload itself,
    and its method is POST or GET. *)
Theorem invoke_request_invariants {S : Type} (env : gmap string string)
    (this : PaxfulApi.t S) (url : string)
    (payload : option (gmap string JsValue)) :
  let rb := request (PaxfulApi.invoke mkDelegated env this url payload) in
  rb_acceptKind rb = AcceptJson
  ∧ rb_urlParams rb = ∅
  ∧ rb_bodyKind rb ≠ BodyJson
  ∧ (rb_bodyKind rb = BodyNone ↔ payload = None)
  ∧ rb_body rb = (JsObject <$> payload)
  ∧ (rb_method rb = "POST" ∨ rb_method rb = "GET").
Proof.
  cbv zeta.
  destruct (from_option containsBinary false payload) eqn:Hb.
  - destruct payload as [p|]; [|discriminate].
    rewrite invoke_binary by exact Hb. simpl.
    repeat split; try discriminate. now left.
  - rewrite invoke_plain by exact Hb. simpl.
    split; [reflexivity|]. split; [reflexivity|].
    split; [destruct payload; discriminate|].
    split; [destruct payload; split; congruence|].
    split; [reflexivity|].
    destruct (endsWith url "currency/btc"); [now right | now left].
Qed.

(** ** Credentials and login *)

(** The outcome of [saveToken] in one equation. *)
Lemma saveToken_outcome {S : Type} `{CredentialStorage S}
    (this : PaxfulApi.t S) (credentialsPromise : Promise Credentials) :
  PaxfulApi.saveToken this credentialsPromise =
  (credentialsPromise,
   match credentialsPromise with
   | Resolved c =>
       PaxfulApi.mk (PaxfulApi.apiConfiguration this)
         (saveCredentials c <$> PaxfulApi.credentialStorage this)
   | Rejected _ => this
   end).
Proof.
  unfold PaxfulApi.saveToken.
  destruct this as [cfg [st|]], credentialsPromise as [c|e]; reflexivity.
Qed.

(** X7: the credential methods are transparent.  Whether the token
    acquisition succeeds or fails, [impersonatedCredentials] and
    [myCredentials] settle exactly as the acquirer's promise did, keep the
    configuration of the instance, and neither create a storage where none
    was supplied nor drop the one supplied. *)
Theorem credential_methods_transparent {S : Type} `{CredentialStorage S}
    (retrieveImpersonatedCredentials : ApiConfiguration → string → Promise Credentials)
    (retrievePersonalCredentials : ApiConfiguration → Promise Credentials)
    (this : PaxfulApi.t S) (code : string) :
  let imp :=
    PaxfulApi.impersonatedCredentials retrieveImpersonatedCredentials this code in
  let my := PaxfulApi.myCredentials retrievePersonalCredentials this in
  (imp.1 = retrieveImpersonatedCredentials (PaxfulApi.apiConfiguration this) code
   ∧ PaxfulApi.apiConfiguration imp.2 = PaxfulApi.apiConfiguration this
   ∧ (PaxfulApi.credentialStorage imp.2 = None
      ↔ PaxfulApi.credentialStorage this = None))
  ∧ (my.1 = retrievePersonalCredentials (PaxfulApi.apiConfiguration this)
     ∧ PaxfulApi.apiConfiguration my.2 = PaxfulApi.apiConfiguration this
     ∧ (PaxfulApi.credentialStorage my.2 = None
        ↔ PaxfulApi.credentialStorage this = None)).
Proof.
  cbv zeta.
  unfold PaxfulApi.impersonatedCredentials, PaxfulApi.myCredentials.
  rewrite !saveToken_outcome. simpl.
  split.
  - destruct (retrieveImpersonatedCredentials _ code) as [c|e]; simpl;
      (split; [reflexivity|]); (split; [reflexivity|]);
      destruct (PaxfulApi.credentialStorage this); simpl; split; congruence.
  - destruct (retrievePersonalCredentials _) as [c|e]; simpl;
      (split; [reflexivity|]); (split; [reflexivity|]);
      destruct (PaxfulApi.credentialStorage this); simpl; split; congruence.
Qed.

(** X8: acquisitions in sequence.  After a successful
    [impersonatedCredentials], a successful [myCredentials] saves its record
    on top of the first one, in that order, while a failed [myCredentials]
    leaves the storage as the first acquisition left it. *)
Theorem acquisitions_in_sequence {S : Type} `{CredentialStorage S}
    (retrieveImpersonatedCredentials : ApiConfiguration → string → Promise Credentials)
    (retrievePersonalCredentials : ApiConfiguration → Promise Credentials)
    (this : PaxfulApi.t S) (code : string) (c1 : Credentials) :
  retrieveImpersonatedCredentials (PaxfulApi.apiConfiguration this) code
    = Resolved c1 →
  let this1 :=
    (PaxfulApi.impersonatedCredentials retrieveImpersonatedCredentials this code).2 in
  let after := PaxfulApi.myCredentials retrievePersonalCredentials this1 in
  (∀ c2,
     retrievePersonalCredentials (PaxfulApi.apiConfiguration this) = Resolved c2 →
     after.1 = Resolved c2
     ∧ PaxfulApi.credentialStorage after.2
       = (saveCredentials c2 <$>
            (saveCredentials c1 <$> PaxfulApi.credentialStorage this)))
  ∧ (∀ e,
       retrievePersonalCredentials (PaxfulApi.apiConfiguration this) = Rejected e →
       after.1 = Rejected e
       ∧ PaxfulApi.credentialStorage after.2
         = (saveCredentials c1 <$> PaxfulApi.credentialStorage this)).
Proof.
  intros H1. cbv zeta.
  unfold PaxfulApi.impersonatedCredentials, PaxfulApi.myCredentials.
  rewrite !saveToken_outcome, H1. simpl.
  split.
  - intros c2 ->. split; reflexivity.
  - intros e ->. split; reflexivity.
Qed.

Lemma acquisitions_in_sequence_witness :
  let second := mkCredentials "token-9" None 2000 "Bearer" ["profile"] in
  let this1 :=
    (PaxfulApi.impersonatedCredentials (λ _ _, Resolved sampleCredentials)
       sampleApi "code-42").2 in
  let after := PaxfulApi.myCredentials (λ _, Resolved second) this1 in
  (saved <$> PaxfulApi.credentialStorage after.2)
    = Some [sampleCredentials; second]
  ∧ (PaxfulApi.credentialStorage after.2 ≫= loadCredentials) = Some second.
Proof.
  cbv zeta.
  pose proof (acquisitions_in_sequence
                (λ _ _, Resolved sampleCredentials)
                (λ _, Resolved
                        (mkCredentials "token-9" None 2000 "Bearer" ["profile"]))
                sampleApi "code-42" sampleCredentials eq_refl) as [Hok _].
  destruct (Hok _ eq_refl) as [_ Hst].
  rewrite Hst. split; reflexivity.
Defined.

(** X9: [login] after construction.  The configuration handed to
    [authorize] is the caller's own when its scope is non-empty, and the
    caller's with the scope set to ["profile"; "email"] when the scope was
    absent or empty; the response is passed on as it is. *)
Theorem login_after_construction {S Http2ServerResponse Redirected : Type}
    (authorize : Http2ServerResponse → ApiConfiguration → Redirected)
    (configuration : ApiConfiguration) (storage : option S)
    (env : gmap string string) (response : Http2ServerResponse) :
  let this := (PaxfulApi.new configuration storage env).1 in
  (scope configuration = None ∨ scope configuration = Some [] →
   PaxfulApi.login authorize this response
   = authorize response
       {| clientId := clientId configuration;
          clientSecret := clientSecret configuration;
          redirectUri := redirectUri configuration;
          scope := Some ["profile"; "email"] |})
  ∧ (∀ sc, scope configuration = Some sc → sc ≠ [] →
           PaxfulApi.login authorize this response
           = authorize response configuration).
Proof.
  cbv zeta. unfold PaxfulApi.login. rewrite new_instance. simpl. split.
  - intros [-> | ->]; reflexivity.
  - intros sc -> Hne. destruct sc; [contradiction | reflexivity].
Qed.

Lemma login_after_construction_witness :
  let this :=
    (PaxfulApi.new sampleConfiguration (None : option CellStorage) ∅).1 in
  (scope sampleConfiguration = None ∨ scope sampleConfiguration = Some [])
  ∧ PaxfulApi.login (λ (response : string) config, (response, scope config))
      this "res"
    = ("res", Some ["profile"; "email"]).
Proof.
  cbv zeta.
  pose proof (login_after_construction
                (λ (response : string) config, (response, scope config))
                sampleConfiguration (None : option CellStorage) ∅ "res")
    as [Hdef _].
  split; [left; reflexivity|].
  rewrite (Hdef (or_introl eq_refl)). reflexivity.
Defined.

Example containsBinary_blob :
  containsBinary {[ "file" := JsBlob []; "name" := JsString "a" ]} = true.
Proof. vm_compute. reflexivity. Qed.

Example endsWith_btc : endsWith "/paxful/v1/currency/btc" "currency/btc" = true.
Proof. vm_compute. reflexivity. Qed.

(** A dispatch answered 401 once and 200 on the retry: the parsed 200
    response comes back after one refresh and two dispatches, and the
    refreshed record has been persisted. *)
Example execute_recovers_after_one_refresh :
  let out :=
    Executor.execute recoveringHost sampleRequest sampleConfiguration
      (Some (mkCellStorage (Some sampleCredentials) [])) in
  out.1 = Resolved (Executor.ParsedJson JsNull)
  ∧ Executor.refreshes (Executor.trace out.2) = 1%nat
  ∧ Executor.dispatches (Executor.trace out.2) = 2%nat
  ∧ (saved <$> Executor.storage out.2)
    = Some [mkCredentials "token-2" (Some "refresh-2") 4070 "Bearer" ["profile"]].
Proof. vm_compute. repeat split; reflexivity. Qed.

(** Expired credentials: one refresh before the only dispatch; a 401 after
    that refresh is final. *)
Example execute_expired_then_denied :
  let expired :=
    mkCredentials "token-1" (Some "refresh-1") 100 "Bearer" ["profile"] in
  let out :=
    Executor.execute denyingHost sampleRequest sampleConfiguration
      (Some (mkCellStorage (Some expired) [])) in
  out.1 = Rejected AuthorizationDeniedError
  ∧ Executor.refreshes (Executor.trace out.2) = 1%nat
  ∧ Executor.dispatches (Executor.trace out.2) = 1%nat.
Proof. vm_compute. repeat split; reflexivity. Qed.
